(** * Session persistence manager

    A shallow embedding of [pkg/sessions/persistence/manager.go]: the
    [Manager] that coordinates a session ticket, a persistent [Store] and
    the cookie builder, and the properties of its three methods [Save],
    [Load] and [Clear]. *)

From Stdlib Require Import ZArith Strings.Byte Strings.Ascii.
From stdpp Require Import base option list strings gmap.

Open Scope string_scope.
Open Scope list_scope.

(** ** Go error values *)

(** An [error] is the sentinel [http.ErrNoCookie], a plain message
    ([errors.New], or [fmt.Errorf] without the [%w] verb), or a message
    that wraps a cause ([fmt.Errorf] with [%w]).  A nil error is [None]
    of [option error]. *)
Inductive error : Type :=
| ErrNoCookie
| ErrText (msg : string)
| ErrWrap (msg : string) (cause : error).

#[global] Instance error_eq_dec : EqDecision error.
Proof. solve_decision. Defined.

(** [err.Error()] *)
Definition Error (err : error) : string :=
  match err with
  | ErrNoCookie => "http: named cookie not present"
  | ErrText msg => msg
  | ErrWrap msg _ => msg
  end.

(** [errors.Is(err, target)]: [target] is [err] itself or is found by
    unwrapping [err] repeatedly. *)
Fixpoint errors_Is (err target : error) : bool :=
  bool_decide (err = target) ||
  match err with
  | ErrWrap _ cause => errors_Is cause target
  | _ => false
  end.

(** [err] wrapped once for every message of [msgs], the outermost first:
    nested [fmt.Errorf] calls with the [%w] verb. *)
Definition wrapped (msgs : list string) (err : error) : error :=
  fold_right ErrWrap err msgs.

(** [fmt.Errorf(prefix + "%v", err)]: the verb [%v] prints the message of
    [err] and keeps no link to it, so the result unwraps to nothing. *)
Definition Errorf (prefix : string) (err : error) : error :=
  ErrText (prefix +:+ Error err).

(** ** Time *)

(** A [time.Time] instant: seconds and nanoseconds since January 1, year 1,
    00:00:00 UTC. *)
Record Time : Type := mkTime { sec : Z; nsec : Z }.

#[global] Instance Time_eq_dec : EqDecision Time.
Proof. solve_decision. Defined.

(** [t.IsZero()] *)
Definition IsZero (t : Time) : bool := ((sec t =? 0) && (nsec t =? 0))%Z.

(** [time.Duration] *)
Definition Duration : Type := Z.

(** ** Session state *)

(** Modelled from the spec: [sessions.SessionState] (pkg/apis/sessions is
    not among the sources).  A creation timestamp behind a pointer, the
    expiry the TTL is computed from, and the rest of the payload, which the
    manager never looks into. *)
Record SessionState : Type := mkSessionState {
  CreatedAt : option Time;
  ExpiresOn : option Time;
  payload : string
}.

Definition set_CreatedAt (c : option Time) (s : SessionState) : SessionState :=
  {| CreatedAt := c; ExpiresOn := ExpiresOn s; payload := payload s |}.

(** A [*sessions.SessionState]: an address in the heap of session states. *)
Definition loc : Type := positive.

(** ** Calls to the collaborators *)

(** The calls the manager issues, directly or through the closures it hands
    to the ticket.  They are recorded, in order, in a ghost trace. *)
Inductive Call : Type :=
| CallDecode
| CallNewTicket
| CallSetCookie (id : string)
| CallClearCookie (id : string)
| CallStoreSave (key : string)
| CallStoreLoad (key : string)
| CallStoreClear (key : string).

#[global] Instance Call_eq_dec : EqDecision Call.
Proof. solve_decision. Defined.

Definition is_SetCookie (c : Call) : bool :=
  match c with CallSetCookie _ => true | _ => false end.
Definition is_ClearCookie (c : Call) : bool :=
  match c with CallClearCookie _ => true | _ => false end.
Definition is_StoreSave (c : Call) : bool :=
  match c with CallStoreSave _ => true | _ => false end.
Definition is_StoreLoad (c : Call) : bool :=
  match c with CallStoreLoad _ => true | _ => false end.
Definition is_StoreClear (c : Call) : bool :=
  match c with CallStoreClear _ => true | _ => false end.

(** How often a kind of call occurs. *)
Definition count_calls (p : Call -> bool) (l : list Call) : nat :=
  length (List.filter p l).

(** ** Outcome of a run *)

(** A Go function returns, or panics (a nil pointer dereference). *)
Inductive Res (A : Type) : Type :=
| Ok (a : A)
| Panic.
Arguments Ok {A} a.
Arguments Panic {A}.

(** ** Package persistence *)

Module persistence.

Section Model.

(** Types of [net/http] and [context] that the manager only hands on. *)
Context {Request ResponseWriter Ctx : Type}.
(** [req.Context()] *)
Variable Request_Context : Request -> Ctx.

(** The [cookies.Builder] value, the state behind the [Store], and the
    state of the cookie layer (response headers, random source). *)
Context {Builder StoreSt JarSt : Type}.

(** *** The world a method runs in *)

Record World : Type := mkWorld {
  clock : Time;                       (* what [time.Now()] reads *)
  heap : gmap loc SessionState;       (* the session state objects *)
  trace : list Call;                  (* calls issued so far, oldest first *)
  store : StoreSt;
  jar : JarSt
}.

Definition M (A : Type) : Type := World -> Res A * World.

Definition ret {A} (a : A) : M A := fun w => (Ok a, w).

Definition bind {A B} (m : M A) (f : A -> M B) : M B :=
  fun w =>
    match m w with
    | (Ok a, w') => f a w'
    | (Panic, w') => (Panic, w')
    end.

Notation "x <- c1 ;; c2" := (bind c1 (fun x => c2))
  (at level 100, c1 at next level, right associativity).
Notation "c1 ;; c2" := (bind c1 (fun _ => c2))
  (at level 100, right associativity).

Definition log (c : Call) (w : World) : World :=
  {| clock := clock w; heap := heap w; trace := trace w ++ [c];
     store := store w; jar := jar w |}.

Definition with_heap (h : gmap loc SessionState) (w : World) : World :=
  {| clock := clock w; heap := h; trace := trace w;
     store := store w; jar := jar w |}.

Definition with_store (s : StoreSt) (w : World) : World :=
  {| clock := clock w; heap := heap w; trace := trace w;
     store := s; jar := jar w |}.

Definition with_jar (j : JarSt) (w : World) : World :=
  {| clock := clock w; heap := heap w; trace := trace w;
     store := store w; jar := j |}.

(** [time.Now()] *)
Definition time_Now : M Time := fun w => (Ok (clock w), w).

(** [*s]: reading through a nil pointer panics. *)
Definition deref (s : loc) : M SessionState :=
  fun w =>
    match heap w !! s with
    | Some st => (Ok st, w)
    | None => (Panic, w)
    end.

(** [*s = st] *)
Definition assign (s : loc) (st : SessionState) : M unit :=
  fun w => (Ok tt, with_heap (<[s := st]> (heap w)) w).

(** A call into the cookie layer: recorded, then run on its state. *)
Definition call_jar {A} (c : Call) (f : JarSt -> A * JarSt) : M A :=
  fun w => let '(a, j) := f (jar w) in (Ok a, with_jar j (log c w)).

(** A call to the store: recorded, then run on its state. *)
Definition call_store {A} (c : Call) (f : StoreSt -> A * StoreSt) : M A :=
  fun w => let '(a, s) := f (store w) in (Ok a, with_store s (log c w)).

(** A step of the ticket that calls no collaborator (serialising and
    encrypting draw on the random source only). *)
Definition in_jar {A} (f : JarSt -> A * JarSt) : M A :=
  fun w => let '(a, j) := f (jar w) in (Ok a, with_jar j w).

(** *** The Store interface *)

Record StoreI : Type := mkStore {
  Store_Save : Ctx -> string -> list Byte.byte -> Duration -> StoreSt -> option error * StoreSt;
  Store_Load : Ctx -> string -> StoreSt -> (list Byte.byte * option error) * StoreSt;
  Store_Clear : Ctx -> string -> StoreSt -> option error * StoreSt
}.

(** *** The ticket *)

Record ticket : Type := mkTicket {
  id : string;
  secret : list Byte.byte;
  ticket_cookieBuilder : Builder
}.

(** [&ticket{cookieBuilder: b}]: the other fields hold their zero value. *)
Definition zero_ticket (b : Builder) : ticket :=
  {| id := EmptyString; secret := []; ticket_cookieBuilder := b |}.

(** The functions of ticket.go that call nothing of the manager.  The file
    is not among the sources; they are taken as they are declared.  A Go
    result of a ticket pointer and an error is a sum: the error, or the
    ticket. *)
Variable decodeTicketFromRequest : Request -> Builder -> JarSt -> (error + ticket) * JarSt.
Variable newTicket : Builder -> JarSt -> (error + ticket) * JarSt.
Variable setCookie : ticket -> ResponseWriter -> Request -> SessionState -> JarSt -> option error * JarSt.
Variable clearCookie : ticket -> ResponseWriter -> Request -> JarSt -> option error * JarSt.
(** Serialising and encrypting a state under the key derived from the
    ticket's secret, with the TTL of the entry; and the way back. *)
Variable seal : ticket -> SessionState -> JarSt -> (error + (list Byte.byte * Duration)) * JarSt.
Variable unseal : ticket -> list Byte.byte -> option SessionState * option error.

(** Modelled from the spec: [ticket.saveSession] (ticket.go is not among
    the sources).  It serialises and encrypts the state, computes the TTL
    and invokes the store writer with the ticket's id; it fails if
    serialising or encrypting fails, and an error of the store writer is
    returned verbatim. *)
Definition saveSession (t : ticket) (s : loc)
    (saver : string -> list Byte.byte -> Duration -> M (option error)) : M (option error) :=
  st <- deref s ;;
  sealed <- in_jar (seal t st) ;;
  match sealed with
  | inl err => ret (Some err)
  | inr (ciphertext, ttl) => saver (id t) ciphertext ttl
  end.

(** Modelled from the spec: [ticket.loadSession] (ticket.go is not among
    the sources).  It invokes the store reader with the ticket's id, then
    decrypts and deserialises what the store returned. *)
Definition loadSession (t : ticket)
    (loader : string -> M (list Byte.byte * option error)) : M (option SessionState * option error) :=
  r <- loader (id t) ;;
  match r with
  | (_, Some err) => ret (None, Some err)
  | (ciphertext, None) => ret (unseal t ciphertext)
  end.

(** Modelled from the spec: [ticket.clearSession] (ticket.go is not among
    the sources).  It invokes the store deleter with the ticket's id and
    returns what the deleter returned. *)
Definition clearSession (t : ticket) (clearer : string -> M (option error)) : M (option error) :=
  clearer (id t).

(** *** The manager *)

Record Manager : Type := NewManager {
  Store : StoreI;
  cookieBuilder : Builder
}.

(** Lines 33-36 of [Save]: stamp an unset or zero [CreatedAt]. *)
Definition stampCreatedAt (s : loc) : M unit :=
  st <- deref s ;;
  if match CreatedAt st with None => true | Some t => IsZero t end
  then now <- time_Now ;; assign s (set_CreatedAt (Some now) st)
  else ret tt.

(** Lines 38-44 of [Save]: the ticket of the request's cookie, or a new
    one; [inl] is the error [Save] returns at line 42. *)
Definition ticketForSave (m : Manager) (req : Request) : M (error + ticket) :=
  decoded <- call_jar CallDecode (decodeTicketFromRequest req (cookieBuilder m)) ;;
  match decoded with
  | inr tckt => ret (inr tckt)
  | inl _ =>
      minted <- call_jar CallNewTicket (newTicket (cookieBuilder m)) ;;
      match minted with
      | inl err => ret (inl (Errorf "error creating a session ticket: " err))
      | inr tckt => ret (inr tckt)
      end
  end.

(** The closure of lines 46-48. *)
Definition storeSaver (m : Manager) (req : Request)
    (key : string) (val : list Byte.byte) (exp : Duration) : M (option error) :=
  call_store (CallStoreSave key) (Store_Save (Store m) (Request_Context req) key val exp).

(** Lines 46-53 of [Save]: persist under the ticket, then set the cookie. *)
Definition persistWithTicket (m : Manager) (rw : ResponseWriter) (req : Request)
    (s : loc) (tckt : ticket) : M (option error) :=
  err <- saveSession tckt s (storeSaver m req) ;;
  match err with
  | Some e => ret (Some e)
  | None =>
      st <- deref s ;;
      call_jar (CallSetCookie (id tckt)) (setCookie tckt rw req st)
  end.

(** [func (m *Manager) Save(rw, req, s) error] *)
Definition Save (m : Manager) (rw : ResponseWriter) (req : Request) (s : loc) : M (option error) :=
  stampCreatedAt s ;;
  t <- ticketForSave m req ;;
  match t with
  | inl err => ret (Some err)
  | inr tckt => persistWithTicket m rw req s tckt
  end.

(** [Save], started in [w], reaches line 46 in the world [w1]: the state
    is stamped and the ticket [tckt] is at hand, decoded from the cookie
    or newly minted. *)
Definition reachesPersist (m : Manager) (req : Request) (s : loc)
    (w : World) (tckt : ticket) (w1 : World) : Prop :=
  (stampCreatedAt s ;; ticketForSave m req) w = (Ok (inr tckt), w1).

(** [func (m *Manager) Load(req)], returning a session state pointer
    and an error. *)
Definition Load (m : Manager) (req : Request) : M (option SessionState * option error) :=
  decoded <- call_jar CallDecode (decodeTicketFromRequest req (cookieBuilder m)) ;;
  match decoded with
  | inl err => ret (None, Some err)
  | inr tckt =>
      loadSession tckt (fun key =>
        call_store (CallStoreLoad key) (Store_Load (Store m) (Request_Context req) key))
  end.

(** [func (m *Manager) Clear(rw, req) error].  On the failure path the
    [err] of line 79 is local to that [if]; lines 83 and 86 read the
    decode error again.  Line 89 drops what [clearCookie] returns. *)
Definition Clear (m : Manager) (rw : ResponseWriter) (req : Request) : M (option error) :=
  decoded <- call_jar CallDecode (decodeTicketFromRequest req (cookieBuilder m)) ;;
  match decoded with
  | inl err =>
      let tckt := zero_ticket (cookieBuilder m) in
      cleared <- call_jar (CallClearCookie (id tckt)) (clearCookie tckt rw req) ;;
      match cleared with
      | Some err' => ret (Some (Errorf "error creating cookie to clear session: " err'))
      | None =>
          if errors_Is err ErrNoCookie then ret None
          else ret (Some (Errorf "error decoding ticket to clear session: " err))
      end
  | inr tckt =>
      call_jar (CallClearCookie (id tckt)) (clearCookie tckt rw req) ;;
      clearSession tckt (fun key =>
        call_store (CallStoreClear key) (Store_Clear (Store m) (Request_Context req) key))
  end.

End Model.

End persistence.

Import persistence.

(** ** Test doubles

    An in-memory store and a cookie jar, as small as the interfaces
    allow.  They are the concrete collaborators the general statements
    below are run against. *)
Module Fake.

(** A request carries the value of the session cookie, if it has one. *)
Record Request : Type := mkRequest { cookie : option string }.

(** A cookie builder that can build cookies, or one that cannot (say,
    for lack of a signing secret). *)
Inductive Builder : Type := Working | Broken.

(** The cookie layer: the session cookie the browser holds once the
    responses written so far have reached it, and the next identifier of
    the random source ([None]: the source is unavailable). *)
Record Jar : Type := mkJar { browser : option string; rand : option string }.

(** The store: its entries, and whether the backend can be reached. *)
Record Mem : Type := mkMem { entries : gmap string (list Byte.byte); up : bool }.

Definition tkt (v : string) (b : Builder) : @ticket Builder :=
  {| id := v; secret := String.list_byte_of_string v; ticket_cookieBuilder := b |}.

(** A cookie value is a ticket when it starts with the letter t. *)
Definition decodeTicketFromRequest (req : Request) (b : Builder) (j : Jar)
    : (error + @ticket Builder) * Jar :=
  match cookie req with
  | None => (inl ErrNoCookie, j)
  | Some (String "t"%char rest) => (inr (tkt (String "t"%char rest) b), j)
  | Some _ => (inl (ErrText "session ticket cookie failed validation"), j)
  end.

Definition newTicket (b : Builder) (j : Jar) : (error + @ticket Builder) * Jar :=
  match rand j with
  | None => (inl (ErrText "failed to read random bytes"), j)
  | Some r => (inr (tkt r b), {| browser := browser j; rand := Some (r +:+ "x") |})
  end.

Definition setCookie (t : @ticket Builder) (rw : unit) (req : Request)
    (s : SessionState) (j : Jar) : option error * Jar :=
  match ticket_cookieBuilder t with
  | Broken => (Some (ErrText "cookie builder: no signing secret"), j)
  | Working => (None, {| browser := Some (id t); rand := rand j |})
  end.

Definition clearCookie (t : @ticket Builder) (rw : unit) (req : Request)
    (j : Jar) : option error * Jar :=
  match ticket_cookieBuilder t with
  | Broken => (Some (ErrText "cookie builder: no signing secret"), j)
  | Working => (None, {| browser := None; rand := rand j |})
  end.

Definition seal (t : @ticket Builder) (s : SessionState) (j : Jar)
    : (error + (list Byte.byte * Duration)) * Jar :=
  (inr (String.list_byte_of_string (payload s), 3600%Z), j).

Definition unseal (t : @ticket Builder) (b : list Byte.byte)
    : option SessionState * option error :=
  (Some {| CreatedAt := None; ExpiresOn := None; payload := String.string_of_list_byte b |}, None).

Definition down : error := ErrText "store: connection refused".

Definition mem : @StoreI unit Mem :=
  {| Store_Save := fun _ key val _ m =>
       if up m then (None, {| entries := <[key := val]> (entries m); up := true |})
       else (Some down, m);
     Store_Load := fun _ key m =>
       if up m then
         match entries m !! key with
         | Some v => ((v, None), m)
         | None => (([], Some (ErrText "store: no such key")), m)
         end
       else (([], Some down), m);
     Store_Clear := fun _ key m =>
       if up m then (None, {| entries := delete key (entries m); up := true |})
       else (Some down, m) |}.

Definition manager (b : Builder) : @Manager unit Builder Mem :=
  {| Store := mem; cookieBuilder := b |}.

(** Every request runs under the one background context. *)
Definition ctx (req : Request) : unit := tt.

Definition Save := Save (StoreSt := Mem) ctx decodeTicketFromRequest newTicket setCookie seal.
Definition Load := Load (StoreSt := Mem) ctx decodeTicketFromRequest unseal.
Definition Clear := Clear (StoreSt := Mem) ctx decodeTicketFromRequest clearCookie.
Definition reachesPersist :=
  reachesPersist (Ctx := unit) (StoreSt := Mem) decodeTicketFromRequest newTicket.
Definition saveSession := saveSession (StoreSt := Mem) seal.
Definition storeSaver :=
  storeSaver (Builder := Builder) (StoreSt := Mem) (JarSt := Jar) ctx.

(** A session state never saved before. *)
Definition fresh : SessionState :=
  {| CreatedAt := None; ExpiresOn := None; payload := "alice" |}.

(** A session state whose [CreatedAt] points at the zero time. *)
Definition zeroed : SessionState :=
  {| CreatedAt := Some {| sec := 0; nsec := 0 |}; ExpiresOn := None; payload := "bob" |}.

Definition noon : Time := {| sec := 63900000000%Z; nsec := 0%Z |}.
Definition evening : Time := {| sec := 63900021600%Z; nsec := 0%Z |}.

(** The session state [st] sits at address 1; the browser holds [c]; the
    store holds [es] and is reachable or not. *)
Definition world (st : SessionState) (c : option string)
    (es : gmap string (list Byte.byte)) (u : bool) : @World Mem Jar :=
  {| clock := noon; heap := {[ 1%positive := st ]}; trace := [];
     store := {| entries := es; up := u |};
     jar := {| browser := c; rand := Some "t-new" |} |}.

(** The same world at another time of day. *)
Definition at_time (t : Time) (w : @World Mem Jar) : @World Mem Jar :=
  {| clock := t; heap := heap w; trace := trace w; store := store w; jar := jar w |}.

(** The same world after the calls [tr]. *)
Definition traced (tr : list Call) (w : @World Mem Jar) : @World Mem Jar :=
  {| clock := clock w; heap := heap w; trace := tr; store := store w; jar := jar w |}.

(** The address of the session state. *)
Definition s1 : loc := 1%positive.

Definition no_cookie : Request := {| cookie := None |}.
Definition cookie_t1 : Request := {| cookie := Some "t1" |}.
Definition cookie_junk : Request := {| cookie := Some "junk" |}.

(** The store entry a valid cookie [t1] points at. *)
Definition entry_t1 : gmap string (list Byte.byte) :=
  {[ "t1" := String.list_byte_of_string "alice" ]}.

(** A decoder that reports its failures wrapped with [%w]. *)
Definition decodeWrapping (req : Request) (b : Builder) (j : Jar)
    : (error + @ticket Builder) * Jar :=
  match decodeTicketFromRequest req b j with
  | (inl err, j') => (inl (ErrWrap ("decoding ticket: " +:+ Error err) err), j')
  | (inr t, j') => (inr t, j')
  end.

(** A decoder that reports its failures formatted with [%v]. *)
Definition decodeFormatting (req : Request) (b : Builder) (j : Jar)
    : (error + @ticket Builder) * Jar :=
  match decodeTicketFromRequest req b j with
  | (inl err, j') => (inl (Errorf "decoding ticket: " err), j')
  | (inr t, j') => (inr t, j')
  end.

End Fake.


(** ** Properties of the manager *)

Section Properties.

Context {Request ResponseWriter Ctx : Type}.
Variable Request_Context : Request -> Ctx.
Context {Builder StoreSt JarSt : Type}.
Variable decodeTicketFromRequest : Request -> Builder -> JarSt -> (error + @ticket Builder) * JarSt.
Variable newTicket : Builder -> JarSt -> (error + @ticket Builder) * JarSt.
Variable setCookie : @ticket Builder -> ResponseWriter -> Request -> SessionState -> JarSt -> option error * JarSt.
Variable clearCookie : @ticket Builder -> ResponseWriter -> Request -> JarSt -> option error * JarSt.
Variable seal : @ticket Builder -> SessionState -> JarSt -> (error + (list Byte.byte * Duration)) * JarSt.
Variable unseal : @ticket Builder -> list Byte.byte -> option SessionState * option error.

Local Abbreviation World := (@World StoreSt JarSt).
Local Abbreviation Manager := (@Manager Ctx Builder StoreSt).
Local Abbreviation ticketForSave := (ticketForSave (StoreSt := StoreSt) decodeTicketFromRequest newTicket).
Local Abbreviation storeSaver := (storeSaver (JarSt := JarSt) Request_Context).
Local Abbreviation saveSession := (saveSession (StoreSt := StoreSt) seal).
Local Abbreviation persistWithTicket := (persistWithTicket Request_Context setCookie seal).
Local Abbreviation Save := (Save Request_Context decodeTicketFromRequest newTicket setCookie seal).
Local Abbreviation Load := (Load Request_Context decodeTicketFromRequest unseal).
Local Abbreviation Clear := (Clear Request_Context decodeTicketFromRequest clearCookie).
Local Abbreviation stampCreatedAt := (stampCreatedAt (StoreSt := StoreSt) (JarSt := JarSt)).
Local Abbreviation reachesPersist := (reachesPersist decodeTicketFromRequest newTicket).

(** *** What each step leaves alone *)

Ltac run :=
  unfold bind, ret, time_Now, assign, deref, call_jar, call_store, in_jar in *;
  simpl in *.

Lemma stampCreatedAt_run (s : loc) (st : SessionState) (w : World) :
  heap w !! s = Some st ->
  exists w1,
    persistence.stampCreatedAt s w = (Ok tt, w1)
    /\ heap w1 !! s =
         Some (if match CreatedAt st with None => true | Some t => IsZero t end
               then set_CreatedAt (Some (clock w)) st else st)
    /\ clock w1 = clock w /\ trace w1 = trace w
    /\ store w1 = store w /\ jar w1 = jar w.
Proof.
  intros Hs. unfold persistence.stampCreatedAt. run. rewrite Hs.
  destruct (match CreatedAt st with None => true | Some t => IsZero t end).
  - eexists; split; [reflexivity|]. simpl.
    rewrite lookup_insert_eq. auto.
  - eexists; split; [reflexivity|]. auto.
Qed.

Lemma stampCreatedAt_nil (s : loc) (w : World) :
  heap w !! s = None -> persistence.stampCreatedAt s w = (Panic, w).
Proof. intros Hs. unfold persistence.stampCreatedAt. run. now rewrite Hs. Qed.

Lemma ticketForSave_frame (m : Manager) (req : Request) (w : World) r w1 :
  ticketForSave m req w = (r, w1) ->
  heap w1 = heap w /\ clock w1 = clock w /\ store w1 = store w
  /\ exists calls, trace w1 = trace w ++ calls
       /\ (calls = [CallDecode] \/ calls = [CallDecode; CallNewTicket]).
Proof.
  unfold persistence.ticketForSave. run.
  destruct (decodeTicketFromRequest req (cookieBuilder m) (jar w)) as [[derr|t] j1]; simpl.
  - destruct (newTicket (cookieBuilder m) j1) as [[nerr|t] j2]; simpl;
      intros [= <- <-]; simpl; repeat split;
      eexists; (split; [rewrite <- app_assoc; reflexivity | auto]).
  - intros [= <- <-]; simpl; repeat split. eexists; split; [reflexivity | auto].
Qed.

Lemma saveSession_frame (m : Manager) (req : Request) (tckt : ticket)
    (s : loc) (w : World) r w2 :
  saveSession tckt s (storeSaver m req) w = (r, w2) ->
  heap w2 = heap w /\ clock w2 = clock w
  /\ exists calls, trace w2 = trace w ++ calls
       /\ (calls = [] \/ calls = [CallStoreSave (id tckt)]).
Proof.
  unfold persistence.saveSession, persistence.storeSaver. run.
  destruct (heap w !! s) as [st|]; simpl.
  - destruct (seal tckt st (jar w)) as [[serr|[ct ttl]] j2]; simpl.
    + intros [= <- <-]; simpl; repeat split.
      exists []; split; [now rewrite app_nil_r | auto].
    + destruct (Store_Save (Store m) (Request_Context req) (id tckt) ct ttl (store w))
        as [e s2]; simpl.
      intros [= <- <-]; simpl; repeat split.
      eexists; split; [reflexivity | auto].
  - intros [= <- <-]; repeat split.
    exists []; split; [now rewrite app_nil_r | auto].
Qed.

Lemma persistWithTicket_heap (m : Manager) (rw : ResponseWriter) (req : Request)
    (s : loc) (tckt : ticket) (w : World) r w2 :
  persistWithTicket m rw req s tckt w = (r, w2) -> heap w2 = heap w.
Proof.
  unfold persistence.persistWithTicket, bind at 1.
  destruct (saveSession tckt s (storeSaver m req) w) as [[[e|]|] w1] eqn:Hsave;
    apply saveSession_frame in Hsave as (Hh & _).
  - intros [= <- <-]. exact Hh.
  - run. destruct (heap w1 !! s) as [st|]; simpl.
    + destruct (setCookie tckt rw req st (jar w1)) as [e j]; simpl.
      intros [= <- <-]. exact Hh.
    + intros [= <- <-]. exact Hh.
  - intros [= <- <-]. exact Hh.
Qed.

(** [Save] changes the state object only by the stamp of lines 33-36. *)
Lemma Save_heap (m : Manager) (rw : ResponseWriter) (req : Request)
    (s : loc) (st : SessionState) (w : World) r w' :
  heap w !! s = Some st ->
  Save m rw req s w = (r, w') ->
  heap w' !! s =
    Some (if match CreatedAt st with None => true | Some t => IsZero t end
          then set_CreatedAt (Some (clock w)) st else st).
Proof.
  intros Hs. unfold persistence.Save, bind at 1.
  destruct (stampCreatedAt_run s st w Hs) as (w1 & -> & Hh & _).
  unfold bind at 1.
  destruct (ticketForSave m req w1) as [[[err|tckt]|] w2] eqn:Ht;
    apply ticketForSave_frame in Ht as (Hh2 & _).
  - intros [= <- <-]. now rewrite Hh2.
  - intros Hp. apply persistWithTicket_heap in Hp. now rewrite Hp, Hh2.
  - intros [= <- <-]. now rewrite Hh2.
Qed.

Lemma stampCreatedAt_frame (s : loc) (w : World) r w1 :
  persistence.stampCreatedAt s w = (r, w1) ->
  trace w1 = trace w /\ store w1 = store w /\ jar w1 = jar w.
Proof.
  unfold persistence.stampCreatedAt. run.
  destruct (heap w !! s) as [st|]; simpl.
  - destruct (match CreatedAt st with None => true | Some t => IsZero t end);
      intros [= <- <-]; auto.
  - intros [= <- <-]; auto.
Qed.

(** Once the ticket is at hand, [Save] is lines 46-53; up to there it
    has decoded, perhaps minted, and has not touched the store. *)
Lemma Save_reachesPersist (m : Manager) (rw : ResponseWriter) (req : Request)
    (s : loc) (w : World) (tckt : ticket) (w1 : World) :
  reachesPersist m req s w tckt w1 ->
  Save m rw req s w = persistWithTicket m rw req s tckt w1
  /\ store w1 = store w
  /\ exists calls, trace w1 = trace w ++ calls
       /\ (calls = [CallDecode] \/ calls = [CallDecode; CallNewTicket]).
Proof.
  unfold reachesPersist, persistence.Save. intros Hreach.
  unfold bind at 1 in Hreach. unfold bind at 1.
  destruct (persistence.stampCreatedAt s w) as [[[]|] w0] eqn:Hstamp; [|discriminate].
  apply stampCreatedAt_frame in Hstamp as (Htr & Hst & _).
  rename Hreach into Ht. unfold bind at 1. rewrite Ht.
  apply ticketForSave_frame in Ht as (_ & _ & Hst' & calls & Htr' & Hcalls).
  rewrite Hst', Hst, Htr', Htr. eauto.
Qed.

Lemma count_calls_app (p : Call -> bool) (l1 l2 : list Call) :
  count_calls p (l1 ++ l2) = (count_calls p l1 + count_calls p l2)%nat.
Proof. unfold count_calls. now rewrite List.filter_app, length_app. Qed.

(** *** The creation timestamp *)

(** C10: [Save] stamps the current time on a state whose [CreatedAt] is nil,
    and also on one whose [CreatedAt] points at the zero time; a [CreatedAt]
    that is neither is left as it is. *)
Theorem Save_restamps_zero_CreatedAt (m : Manager) (rw : ResponseWriter)
    (req : Request) (s : loc) (st : SessionState) (w : World) r w' :
  heap w !! s = Some st ->
  Save m rw req s w = (r, w') ->
  CreatedAt <$> heap w' !! s =
    Some (match CreatedAt st with
          | None => Some (clock w)
          | Some t => if IsZero t then Some (clock w) else Some t
          end).
Proof.
  intros Hs Hrun. rewrite (Save_heap _ _ _ _ _ _ _ _ Hs Hrun).
  destruct st as [[t|] ex p]; simpl; [destruct (IsZero t)|]; reflexivity.
Qed.

(** C1: two calls of [Save] on one state object, with a wall clock that
    does not read the zero instant at the first call.  After the first call
    [CreatedAt] holds a time [t], which is the time of that call when the
    state came unstamped; whatever else happened in between, the second call
    leaves the object, and so [t], as the first call left it. *)
Theorem Save_stamps_CreatedAt_once (m : Manager) (rw rw' : ResponseWriter)
    (req req' : Request) (s : loc) (st : SessionState) (w w1 v w2 : World) r1 r2 :
  heap w !! s = Some st ->
  IsZero (clock w) = false ->
  Save m rw req s w = (r1, w1) ->
  heap v !! s = heap w1 !! s ->
  Save m rw' req' s v = (r2, w2) ->
  exists (st1 : SessionState) (t : Time),
    heap w1 !! s = Some st1 /\ CreatedAt st1 = Some t
    /\ (CreatedAt st = None -> t = clock w)
    /\ heap w2 !! s = Some st1.
Proof.
  intros Hs Hclock Hrun1 Hsame Hrun2.
  pose proof (Save_heap _ _ _ _ _ _ _ _ Hs Hrun1) as H1.
  rewrite H1 in Hsame.
  pose proof (Save_heap _ _ _ _ _ _ _ _ Hsame Hrun2) as H2.
  destruct st as [[t|] ex p]; simpl in *.
  - destruct (IsZero t) eqn:Hz; simpl in *.
    + rewrite Hclock in H2. eexists _, (clock w). repeat split; eauto; discriminate.
    + rewrite Hz in H2. eexists _, t. repeat split; eauto; discriminate.
  - rewrite Hclock in H2. eexists _, (clock w). repeat split; eauto.
Qed.

(** *** Errors of Save *)

(** C2: when [Save] has its ticket and the persistence step
    [tckt.saveSession] returns the error [e], [Save] returns [e] and stops
    in the world [saveSession] left: no call of [setCookie] was issued. *)
Theorem Save_persistence_failure_sets_no_cookie (m : Manager) (rw : ResponseWriter)
    (req : Request) (s : loc) (w : World) (tckt : ticket) (w1 w2 : World) (e : error) :
  reachesPersist m req s w tckt w1 ->
  saveSession tckt s (storeSaver m req) w1 = (Ok (Some e), w2) ->
  Save m rw req s w = (Ok (Some e), w2)
  /\ exists calls, trace w2 = trace w ++ calls
       /\ count_calls is_SetCookie calls = 0%nat.
Proof.
  intros Hreach Hsave.
  apply (Save_reachesPersist m rw) in Hreach as (-> & _ & c1 & Htr1 & Hc1).
  split.
  - unfold persistence.persistWithTicket, bind. now rewrite Hsave.
  - apply saveSession_frame in Hsave as (_ & _ & c2 & Htr2 & Hc2).
    exists (c1 ++ c2). split.
    + now rewrite Htr2, Htr1, app_assoc.
    + rewrite count_calls_app.
      destruct Hc1 as [-> | ->], Hc2 as [-> | ->]; reflexivity.
Qed.

(** C3: when decoding the ticket of the request fails, [Save] calls
    [newTicket] next.  If that fails, [Save] returns the error of line 42,
    made from the error of [newTicket], and calls nothing else.  If it
    yields a ticket, [Save] goes on to persist under that ticket.  The decode
    error is returned in neither case. *)
Theorem Save_mints_ticket_on_decode_failure (m : Manager) (rw : ResponseWriter)
    (req : Request) (s : loc) (st : SessionState) (w : World) (derr : error) (j1 : JarSt) :
  heap w !! s = Some st ->
  decodeTicketFromRequest req (cookieBuilder m) (jar w) = (inl derr, j1) ->
  match newTicket (cookieBuilder m) j1 with
  | (inl nerr, j2) =>
      exists w',
        Save m rw req s w =
          (Ok (Some (Errorf "error creating a session ticket: " nerr)), w')
        /\ trace w' = trace w ++ [CallDecode; CallNewTicket]
        /\ store w' = store w /\ jar w' = j2
  | (inr tckt, j2) =>
      exists w1,
        reachesPersist m req s w tckt w1
        /\ trace w1 = trace w ++ [CallDecode; CallNewTicket]
        /\ store w1 = store w /\ jar w1 = j2
        /\ Save m rw req s w = persistWithTicket m rw req s tckt w1
  end.
Proof.
  intros Hs Hdec.
  destruct (stampCreatedAt_run s st w Hs) as (w0 & Hstamp & _ & _ & Htr & Hst & Hjar).
  destruct (newTicket (cookieBuilder m) j1) as [[nerr|tckt] j2] eqn:Hnew.
  - eexists. unfold persistence.Save, bind at 1. rewrite Hstamp.
    unfold persistence.ticketForSave. run. rewrite Hjar, Hdec; simpl.
    rewrite Hnew; simpl. split; [reflexivity|]. simpl.
    rewrite Htr, Hst, <- app_assoc. auto.
  - assert (exists w1, reachesPersist m req s w tckt w1
              /\ trace w1 = trace w ++ [CallDecode; CallNewTicket]
              /\ store w1 = store w /\ jar w1 = j2) as (w1 & Hreach & ? & ? & ?).
    { eexists. unfold reachesPersist, bind at 1. rewrite Hstamp.
      unfold persistence.ticketForSave. run. rewrite Hjar, Hdec; simpl.
      rewrite Hnew; simpl. split; [reflexivity|]. simpl.
      rewrite Htr, Hst, <- app_assoc. auto. }
    exists w1. repeat split; auto.
    now apply (Save_reachesPersist m rw) in Hreach as (-> & _).
Qed.

(** C8: when the state is sealed for the ticket and [Store.Save] returns
    the error [e], [Save] returns [e] itself, and [Store.Save] was called
    once in the whole run. *)
Theorem Save_store_error_verbatim (m : Manager) (rw : ResponseWriter)
    (req : Request) (s : loc) (w : World) (tckt : ticket) (w1 : World)
    (st : SessionState) (ct : list Byte.byte) (ttl : Duration) (j2 : JarSt)
    (e : error) (s2 : StoreSt) :
  reachesPersist m req s w tckt w1 ->
  heap w1 !! s = Some st ->
  seal tckt st (jar w1) = (inr (ct, ttl), j2) ->
  Store_Save (Store m) (Request_Context req) (id tckt) ct ttl (store w1) = (Some e, s2) ->
  exists w' calls,
    Save m rw req s w = (Ok (Some e), w')
    /\ store w' = s2
    /\ trace w' = trace w ++ calls
    /\ count_calls is_StoreSave calls = 1%nat
    /\ count_calls is_SetCookie calls = 0%nat.
Proof.
  intros Hreach Hs Hseal Hstore.
  apply (Save_reachesPersist m rw) in Hreach as (-> & _ & c1 & Htr1 & Hc1).
  eexists _, (c1 ++ [CallStoreSave (id tckt)]).
  unfold persistence.persistWithTicket, persistence.saveSession, persistence.storeSaver.
  run. rewrite Hs; simpl. rewrite Hseal; simpl. rewrite Hstore; simpl.
  split; [reflexivity|]. simpl. split; [reflexivity|].
  split; [now rewrite Htr1, app_assoc|].
  rewrite !count_calls_app. destruct Hc1 as [-> | ->]; split; reflexivity.
Qed.

(** *** Errors of Load *)

(** C4: when decoding the ticket of the request fails with [derr], [Load]
    returns a nil state together with [derr] itself; the decode was its only
    call, so [Store.Load] was not called and the store is as before. *)
Theorem Load_decode_failure (m : Manager) (req : Request) (w : World)
    (derr : error) (j1 : JarSt) :
  decodeTicketFromRequest req (cookieBuilder m) (jar w) = (inl derr, j1) ->
  exists w',
    Load m req w = (Ok (None, Some derr), w')
    /\ trace w' = trace w ++ [CallDecode]
    /\ count_calls is_StoreLoad [CallDecode] = 0%nat
    /\ store w' = store w.
Proof.
  intros Hdec. eexists. unfold persistence.Load. run. rewrite Hdec; simpl.
  split; [reflexivity|]. auto.
Qed.

(** *** Clear *)

(** On the failure path of [Clear] the cookie is cleared once, with a
    ticket that has nothing but the cookie builder; the store is not
    called.  A failure of that [clearCookie] comes first; otherwise the
    no-cookie condition is success and any other decode error is returned
    with context. *)
Lemma Clear_undecoded (m : Manager) (rw : ResponseWriter) (req : Request)
    (w : World) (derr : error) (j1 : JarSt) :
  decodeTicketFromRequest req (cookieBuilder m) (jar w) = (inl derr, j1) ->
  exists w',
    Clear m rw req w =
      (Ok (match fst (clearCookie (zero_ticket (cookieBuilder m)) rw req j1) with
           | Some cerr => Some (Errorf "error creating cookie to clear session: " cerr)
           | None =>
               if errors_Is derr ErrNoCookie then None
               else Some (Errorf "error decoding ticket to clear session: " derr)
           end), w')
    /\ trace w' = trace w ++ [CallDecode; CallClearCookie EmptyString]
    /\ store w' = store w
    /\ jar w' = snd (clearCookie (zero_ticket (cookieBuilder m)) rw req j1).
Proof.
  intros Hdec. unfold persistence.Clear. run. rewrite Hdec; simpl.
  destruct (clearCookie (zero_ticket (cookieBuilder m)) rw req j1) as [[cerr|] j2]; simpl.
  - eexists; split; [reflexivity|]. simpl. rewrite <- app_assoc. auto.
  - destruct (errors_Is derr ErrNoCookie);
      (eexists; split; [reflexivity|]); simpl; rewrite <- app_assoc; auto.
Qed.

(** X8: on the success path of [Clear] the cookie is cleared, then the store
    entry of the ticket is deleted, and [Clear] returns what [Store.Clear]
    returned.  What [clearCookie] returned has no part in the result. *)
Lemma Clear_decoded (m : Manager) (rw : ResponseWriter) (req : Request)
    (w : World) (tckt : ticket) (j1 j2 : JarSt) (cleared deleted : option error)
    (s2 : StoreSt) :
  decodeTicketFromRequest req (cookieBuilder m) (jar w) = (inr tckt, j1) ->
  clearCookie tckt rw req j1 = (cleared, j2) ->
  Store_Clear (Store m) (Request_Context req) (id tckt) (store w) = (deleted, s2) ->
  exists w',
    Clear m rw req w = (Ok deleted, w')
    /\ trace w' = trace w ++
         [CallDecode; CallClearCookie (id tckt); CallStoreClear (id tckt)]
    /\ store w' = s2 /\ jar w' = j2.
Proof.
  intros Hdec Hclear Hdel. unfold persistence.Clear, persistence.clearSession. run.
  rewrite Hdec; simpl. rewrite Hclear; simpl. rewrite Hdel; simpl.
  eexists; split; [reflexivity|]. simpl. rewrite <- !app_assoc. auto.
Qed.

(** C5, amended: on a request without a session cookie (the decode error
    is, or wraps, [http.ErrNoCookie]) [Clear] performs the cookie-clear
    exactly once: [clearCookie] is applied to the cookie layer as the decode
    left it, and that is the only call after the decode; the store is never
    called and stays as it was.  [Clear] returns no error when that call
    succeeds, and the error of that call, with context, when it fails. *)
Theorem Clear_no_cookie (m : Manager) (rw : ResponseWriter) (req : Request)
    (w : World) (derr : error) (j1 : JarSt) :
  decodeTicketFromRequest req (cookieBuilder m) (jar w) = (inl derr, j1) ->
  errors_Is derr ErrNoCookie = true ->
  exists w',
    Clear m rw req w =
      (Ok (match (clearCookie (zero_ticket (cookieBuilder m)) rw req j1).1 with
           | None => None
           | Some cerr => Some (Errorf "error creating cookie to clear session: " cerr)
           end), w')
    /\ trace w' = trace w ++ [CallDecode; CallClearCookie EmptyString]
    /\ jar w' = (clearCookie (zero_ticket (cookieBuilder m)) rw req j1).2
    /\ store w' = store w
    /\ heap w' = heap w
    /\ clock w' = clock w.
Proof.
  intros Hdec Hno. unfold persistence.Clear. run. rewrite Hdec; simpl.
  destruct (clearCookie (zero_ticket (cookieBuilder m)) rw req j1) as [[cerr|] j2]; simpl.
  - eexists; split; [reflexivity|]. simpl. rewrite <- app_assoc. auto.
  - rewrite Hno. eexists; split; [reflexivity|]. simpl. rewrite <- app_assoc. auto.
Qed.


(** C6: on a request whose cookie is there but does not decode (the decode
    error is not and does not wrap [http.ErrNoCookie]) [Clear] still performs
    the cookie-clear: [clearCookie] is applied once to the cookie layer as
    the decode left it, and that is the only call after the decode; the store
    is never called and stays as it was.  [Clear] returns the decode error
    with context, unless that [clearCookie] fails, in which case it returns
    the error of [clearCookie] with context. *)
Theorem Clear_invalid_cookie (m : Manager) (rw : ResponseWriter) (req : Request)
    (w : World) (derr : error) (j1 : JarSt) :
  decodeTicketFromRequest req (cookieBuilder m) (jar w) = (inl derr, j1) ->
  errors_Is derr ErrNoCookie = false ->
  exists w',
    Clear m rw req w =
      (Ok (Some
             match (clearCookie (zero_ticket (cookieBuilder m)) rw req j1).1 with
             | None => Errorf "error decoding ticket to clear session: " derr
             | Some cerr => Errorf "error creating cookie to clear session: " cerr
             end), w')
    /\ trace w' = trace w ++ [CallDecode; CallClearCookie EmptyString]
    /\ jar w' = (clearCookie (zero_ticket (cookieBuilder m)) rw req j1).2
    /\ store w' = store w
    /\ heap w' = heap w
    /\ clock w' = clock w.
Proof.
  intros Hdec Hno. unfold persistence.Clear. run. rewrite Hdec; simpl.
  destruct (clearCookie (zero_ticket (cookieBuilder m)) rw req j1) as [[cerr|] j2]; simpl.
  - eexists; split; [reflexivity|]. simpl. rewrite <- app_assoc. auto.
  - rewrite Hno. eexists; split; [reflexivity|]. simpl. rewrite <- app_assoc. auto.
Qed.


(** *** More on Save *)

(** X1: when the cookie of the request decodes to a ticket, [Save] keeps
    that ticket: [newTicket] is not called, the decode is the only call made
    before line 46, and [Save] goes on to persist under the decoded ticket. *)
Theorem Save_reuses_decoded_ticket (m : Manager) (rw : ResponseWriter)
    (req : Request) (s : loc) (st : SessionState) (w : World) (tckt : ticket)
    (j1 : JarSt) :
  heap w !! s = Some st ->
  decodeTicketFromRequest req (cookieBuilder m) (jar w) = (inr tckt, j1) ->
  exists w1,
    reachesPersist m req s w tckt w1
    /\ trace w1 = trace w ++ [CallDecode]
    /\ store w1 = store w /\ jar w1 = j1
    /\ Save m rw req s w = persistWithTicket m rw req s tckt w1.
Proof.
  intros Hs Hdec.
  destruct (stampCreatedAt_run s st w Hs) as (w0 & Hstamp & _ & _ & Htr & Hst & Hjar).
  assert (exists w1, reachesPersist m req s w tckt w1
            /\ trace w1 = trace w ++ [CallDecode]
            /\ store w1 = store w /\ jar w1 = j1) as (w1 & Hreach & ? & ? & ?).
  { eexists. unfold persistence.reachesPersist, bind at 1. rewrite Hstamp.
    unfold persistence.ticketForSave. run. rewrite Hjar, Hdec; simpl.
    split; [reflexivity|]. simpl. rewrite Htr, Hst. auto. }
  exists w1. repeat split; auto.
  now apply (Save_reachesPersist m rw) in Hreach as (-> & _).
Qed.

(** At line 46 the state object is there and its [CreatedAt] is not nil. *)
Lemma reachesPersist_stamped (m : Manager) (req : Request) (s : loc)
    (w : World) (tckt : ticket) (w1 : World) :
  reachesPersist m req s w tckt w1 ->
  exists (st1 : SessionState) (t : Time),
    heap w1 !! s = Some st1 /\ CreatedAt st1 = Some t.
Proof.
  unfold persistence.reachesPersist, bind at 1.
  destruct (heap w !! s) as [st|] eqn:Hs.
  - destruct (stampCreatedAt_run s st w Hs) as (w0 & -> & Hh & _).
    intros Ht. apply ticketForSave_frame in Ht as (Hh1 & _).
    rewrite Hh1, Hh.
    destruct st as [[t|] ex p]; simpl; [destruct (IsZero t)|]; simpl; eauto.
  - now rewrite (stampCreatedAt_nil s w Hs).
Qed.

(** X2: when the persistence step succeeds, [Save] calls [setCookie] once,
    for the ticket it persisted under and with the state as it stands then,
    whose [CreatedAt] is not nil; what [setCookie] returns, nil or an error,
    is what [Save] returns. *)
Theorem Save_returns_setCookie_result (m : Manager) (rw : ResponseWriter)
    (req : Request) (s : loc) (w : World) (tckt : ticket) (w1 w2 : World) :
  reachesPersist m req s w tckt w1 ->
  saveSession tckt s (storeSaver m req) w1 = (Ok None, w2) ->
  exists (st1 : SessionState) (t : Time) (w' : World),
    heap w2 !! s = Some st1 /\ CreatedAt st1 = Some t
    /\ Save m rw req s w = (Ok (setCookie tckt rw req st1 (jar w2)).1, w')
    /\ trace w' = trace w2 ++ [CallSetCookie (id tckt)]
    /\ jar w' = (setCookie tckt rw req st1 (jar w2)).2
    /\ store w' = store w2.
Proof.
  intros Hreach Hsave.
  destruct (reachesPersist_stamped _ _ _ _ _ _ Hreach) as (st1 & t & Hs1 & Ht).
  apply (Save_reachesPersist m rw) in Hreach as (-> & _).
  pose proof (saveSession_frame _ _ _ _ _ _ _ Hsave) as (Hh & _).
  exists st1, t. unfold persistence.persistWithTicket, bind at 1. rewrite Hsave.
  run. rewrite Hh, Hs1; simpl.
  destruct (setCookie tckt rw req st1 (jar w2)) as [r j3]; simpl.
  eexists; repeat split; eauto.
Qed.

(** X3: [Save] on a nil state pointer panics at line 33, before it has
    called the cookie layer or the store: the world is as it was. *)
Theorem Save_nil_state_panics (m : Manager) (rw : ResponseWriter)
    (req : Request) (s : loc) (w : World) :
  heap w !! s = None ->
  Save m rw req s w = (Panic, w).
Proof.
  intros Hs. unfold persistence.Save, bind at 1.
  now rewrite (stampCreatedAt_nil s w Hs).
Qed.

(** X4: [Save] does not report success before the work is done.  Whenever
    it returns nil, it had a ticket, decoded or minted; the state, stamped,
    was sealed under that ticket; [Store.Save] was called for the id of the
    ticket and returned nil; then [setCookie] was called for the same ticket
    and returned nil.  These two calls are the last of the run, in this
    order, and the store and the cookie layer are as they left them. *)
Theorem Save_success_means_stored_and_set (m : Manager) (rw : ResponseWriter)
    (req : Request) (s : loc) (w w' : World) :
  Save m rw req s w = (Ok None, w') ->
  exists (tckt : @ticket Builder) (w1 : World) (st1 : SessionState) (t : Time)
      (ct : list Byte.byte) (ttl : Duration) (j2 : JarSt),
    reachesPersist m req s w tckt w1
    /\ heap w1 !! s = Some st1 /\ CreatedAt st1 = Some t
    /\ seal tckt st1 (jar w1) = (inr (ct, ttl), j2)
    /\ Store_Save (Store m) (Request_Context req) (id tckt) ct ttl (store w1)
       = (None, store w')
    /\ setCookie tckt rw req st1 j2 = (None, jar w')
    /\ trace w' = trace w1 ++ [CallStoreSave (id tckt); CallSetCookie (id tckt)]
    /\ heap w' = heap w1.
Proof.
  intros Hrun. unfold persistence.Save, bind at 1 in Hrun.
  destruct (persistence.stampCreatedAt s w) as [[[]|] w0] eqn:Hstamp; [|discriminate].
  unfold bind at 1 in Hrun.
  destruct (ticketForSave m req w0) as [[[err|tckt]|] w1] eqn:Ht; try discriminate.
  assert (Hreach : reachesPersist m req s w tckt w1).
  { unfold persistence.reachesPersist, bind at 1. now rewrite Hstamp. }
  destruct (reachesPersist_stamped _ _ _ _ _ _ Hreach) as (st1 & t & Hs1 & Hc).
  clear Hstamp Ht. exists tckt, w1, st1, t.
  revert Hrun.
  unfold persistence.persistWithTicket, persistence.saveSession, persistence.storeSaver.
  unfold bind, ret, deref, call_jar, call_store, in_jar. simpl. rewrite Hs1.
  destruct (seal tckt st1 (jar w1)) as [[serr|[ct ttl]] j2] eqn:Hseal; simpl;
    [intros [=]|].
  destruct (Store_Save (Store m) (Request_Context req) (id tckt) ct ttl (store w1))
    as [[e|] s2] eqn:Hstore; simpl; [intros [=]|].
  rewrite Hs1. simpl.
  destruct (setCookie tckt rw req st1 j2) as [[cerr|] j3] eqn:Hset; simpl;
    [intros [=]|].
  intros [= <-]. simpl. exists ct, ttl, j2.
  rewrite <- app_assoc. repeat split; auto.
Qed.


Lemma stampCreatedAt_other (s s' : loc) (w : World) r w1 :
  s' <> s ->
  persistence.stampCreatedAt s w = (r, w1) ->
  heap w1 !! s' = heap w !! s'.
Proof.
  intros Hne. unfold persistence.stampCreatedAt. run.
  destruct (heap w !! s) as [st|]; simpl.
  - destruct (match CreatedAt st with None => true | Some t => IsZero t end);
      intros [= <- <-]; simpl; [now rewrite lookup_insert_ne | reflexivity].
  - now intros [= <- <-].
Qed.

(** X5: of all the session state objects [Save] writes to the one it was
    given, and there to [CreatedAt] only: the expiry and the payload of that
    state, and every other state object, are as before. *)
Theorem Save_writes_CreatedAt_only (m : Manager) (rw : ResponseWriter)
    (req : Request) (s : loc) (st : SessionState) (w : World) r w' :
  heap w !! s = Some st ->
  Save m rw req s w = (r, w') ->
  (exists st' : SessionState,
     heap w' !! s = Some st'
     /\ ExpiresOn st' = ExpiresOn st /\ payload st' = payload st)
  /\ forall s' : loc, s' <> s -> heap w' !! s' = heap w !! s'.
Proof.
  intros Hs Hrun. split.
  - rewrite (Save_heap _ _ _ _ _ _ _ _ Hs Hrun).
    destruct (match CreatedAt st with None => true | Some t => IsZero t end);
      eexists; repeat split; reflexivity.
  - intros s' Hne. revert Hrun. unfold persistence.Save, bind at 1.
    destruct (persistence.stampCreatedAt s w) as [[[]|] w0] eqn:Hstamp;
      apply (stampCreatedAt_other s s' _ _ _ Hne) in Hstamp.
    + unfold bind at 1.
      destruct (ticketForSave m req w0) as [[[err|tckt]|] w1] eqn:Ht;
        apply ticketForSave_frame in Ht as (Hh1 & _).
      * intros [= <- <-]. now rewrite Hh1.
      * intros Hp. apply persistWithTicket_heap in Hp. now rewrite Hp, Hh1.
      * intros [= <- <-]. now rewrite Hh1.
    + now intros [= <- <-].
Qed.

(** *** More on Load *)

(** X6: when the cookie decodes to a ticket, [Load] calls [Store.Load] once,
    with the id of that ticket as the key.  An error of the store is returned
    with a nil state; otherwise [Load] returns what unsealing the stored
    bytes under the ticket gives.  The session state objects are untouched. *)
Theorem Load_decoded (m : Manager) (req : Request) (w : World) (tckt : ticket)
    (j1 : JarSt) (ct : list Byte.byte) (lerr : option error) (s2 : StoreSt) :
  decodeTicketFromRequest req (cookieBuilder m) (jar w) = (inr tckt, j1) ->
  Store_Load (Store m) (Request_Context req) (id tckt) (store w) = ((ct, lerr), s2) ->
  exists w',
    Load m req w =
      (Ok (match lerr with
           | Some e => (None, Some e)
           | None => unseal tckt ct
           end), w')
    /\ trace w' = trace w ++ [CallDecode; CallStoreLoad (id tckt)]
    /\ store w' = s2 /\ jar w' = j1 /\ heap w' = heap w.
Proof.
  intros Hdec Hload. unfold persistence.Load, persistence.loadSession. run.
  rewrite Hdec; simpl. rewrite Hload; simpl.
  destruct lerr as [e|]; (eexists; split; [reflexivity|]); simpl;
    rewrite <- app_assoc; auto.
Qed.

(** X7: [Load] is read-only towards its caller and the browser.  Whenever
    it returns, whatever the result, the session state objects and the clock
    are as before, the cookie layer is as the decode left it (no cookie is
    set or cleared), and the store is as before or, when the ticket decoded,
    as the one call of [Store.Load] on the id of that ticket left it. *)
Theorem Load_read_only (m : Manager) (req : Request) (w : World)
    (r : option SessionState * option error) (w' : World) :
  Load m req w = (Ok r, w') ->
  heap w' = heap w
  /\ clock w' = clock w
  /\ jar w' = (decodeTicketFromRequest req (cookieBuilder m) (jar w)).2
  /\ match (decodeTicketFromRequest req (cookieBuilder m) (jar w)).1 with
     | inl _ =>
         trace w' = trace w ++ [CallDecode]
         /\ store w' = store w
     | inr tckt =>
         trace w' = trace w ++ [CallDecode; CallStoreLoad (id tckt)]
         /\ store w'
            = (Store_Load (Store m) (Request_Context req) (id tckt) (store w)).2
     end.
Proof.
  unfold persistence.Load, persistence.loadSession. run.
  destruct (decodeTicketFromRequest req (cookieBuilder m) (jar w)) as [[derr|tckt] j1];
    simpl; [intros [= <- <-]; auto|].
  destruct (Store_Load (Store m) (Request_Context req) (id tckt) (store w))
    as [[ct [e|]] s2]; simpl; intros [= <- <-]; simpl; rewrite <- app_assoc; auto.
Qed.


(** *** More on Clear *)

(** X9: whenever [Clear] returns, whatever the request and whatever the
    result, [clearCookie] has been applied to the cookie layer exactly once,
    right after the decode: on the state the decode left, with the decoded
    ticket or, when there is none, with a ticket that has only the cookie
    builder.  The store is as [Store.Clear] on the id of the decoded ticket
    left it when the ticket decoded, and as it was otherwise.  The session
    state objects and the clock are left alone. *)
Theorem Clear_always_clears_cookie (m : Manager) (rw : ResponseWriter)
    (req : Request) (w : World) (r : option error) (w' : World) :
  Clear m rw req w = (Ok r, w') ->
  heap w' = heap w
  /\ clock w' = clock w
  /\ match decodeTicketFromRequest req (cookieBuilder m) (jar w) with
     | (inl _, j1) =>
         trace w' = trace w ++ [CallDecode; CallClearCookie EmptyString]
         /\ jar w' = (clearCookie (zero_ticket (cookieBuilder m)) rw req j1).2
         /\ store w' = store w
     | (inr tckt, j1) =>
         trace w' = trace w ++
           [CallDecode; CallClearCookie (id tckt); CallStoreClear (id tckt)]
         /\ jar w' = (clearCookie tckt rw req j1).2
         /\ store w'
            = (Store_Clear (Store m) (Request_Context req) (id tckt) (store w)).2
     end.
Proof.
  unfold persistence.Clear, persistence.clearSession. run.
  destruct (decodeTicketFromRequest req (cookieBuilder m) (jar w)) as [[derr|tckt] j1];
    simpl.
  - destruct (clearCookie (zero_ticket (cookieBuilder m)) rw req j1) as [[cerr|] j2];
      simpl; [|destruct (errors_Is derr ErrNoCookie)];
      intros [= <- <-]; simpl; rewrite <- app_assoc; auto.
  - destruct (clearCookie tckt rw req j1) as [cleared j2]; simpl.
    destruct (Store_Clear (Store m) (Request_Context req) (id tckt) (store w))
      as [deleted s2]; simpl.
    intros [= <- <-]; simpl. rewrite <- !app_assoc. auto.
Qed.

Lemma errors_Is_refl (err : error) : errors_Is err err = true.
Proof.
  destruct err; cbn -[bool_decide];
    rewrite bool_decide_eq_true_2 by reflexivity; reflexivity.
Qed.

Lemma errors_Is_wrapped (msgs : list string) (err : error) :
  errors_Is (wrapped msgs err) err = true.
Proof.
  induction msgs as [|msg msgs IH]; simpl.
  - apply errors_Is_refl.
  - rewrite IH. apply orb_true_r.
Qed.

(** X10: line 83 tests the decode error with [errors.Is], so the no-cookie
    condition is recognised through any number of wrappings: when the decode
    error is [http.ErrNoCookie] wrapped with [%w] any number of times and the
    defensive [clearCookie] succeeds, [Clear] returns nil. *)
Theorem Clear_wrapped_no_cookie (m : Manager) (rw : ResponseWriter) (req : Request)
    (w : World) (msgs : list string) (j1 j2 : JarSt) :
  decodeTicketFromRequest req (cookieBuilder m) (jar w)
    = (inl (wrapped msgs ErrNoCookie), j1) ->
  clearCookie (zero_ticket (cookieBuilder m)) rw req j1 = (None, j2) ->
  exists w',
    Clear m rw req w = (Ok None, w')
    /\ trace w' = trace w ++ [CallDecode; CallClearCookie EmptyString]
    /\ store w' = store w /\ jar w' = j2.
Proof.
  intros Hdec Hclear.
  destruct (Clear_undecoded m rw req w _ j1 Hdec) as (w' & Hrun & Htr & Hst & Hjar).
  rewrite Hclear in Hrun, Hjar. simpl in Hrun, Hjar.
  rewrite errors_Is_wrapped in Hrun. eauto.
Qed.

(** X11: formatting with [%v] keeps no link to the cause, so a decode error
    that only prints [http.ErrNoCookie] is not the no-cookie condition: on it
    [Clear] returns an error although the defensive [clearCookie] succeeded. *)
Theorem Clear_formatted_no_cookie_is_an_error (m : Manager) (rw : ResponseWriter)
    (req : Request) (w : World) (prefix : string) (j1 j2 : JarSt) :
  decodeTicketFromRequest req (cookieBuilder m) (jar w)
    = (inl (Errorf prefix ErrNoCookie), j1) ->
  clearCookie (zero_ticket (cookieBuilder m)) rw req j1 = (None, j2) ->
  exists w',
    Clear m rw req w =
      (Ok (Some (ErrText ("error decoding ticket to clear session: " +:+
                          prefix +:+ "http: named cookie not present"))), w').
Proof.
  intros Hdec Hclear.
  destruct (Clear_undecoded m rw req w _ j1 Hdec) as (w' & Hrun & _).
  rewrite Hclear in Hrun. simpl in Hrun. eauto.
Qed.

End Properties.


(** ** Runs on the test doubles *)

Import Fake.

(** A zero [CreatedAt] is stamped over. *)
Lemma Save_restamps_zero_CreatedAt_witness :
  heap (world zeroed None ∅ true) !! s1 = Some zeroed
  /\ CreatedAt <$>
       heap (Fake.Save (manager Working) tt no_cookie s1 (world zeroed None ∅ true)).2 !! s1
     = Some (Some noon).
Proof.
  split; [reflexivity|].
  apply (Save_restamps_zero_CreatedAt ctx decodeTicketFromRequest newTicket
           setCookie seal (manager Working) tt no_cookie s1 zeroed
           (world zeroed None ∅ true)
           (Fake.Save (manager Working) tt no_cookie s1 (world zeroed None ∅ true)).1);
    [reflexivity | vm_compute; reflexivity].
Defined.

(** A first save at noon, a second in the evening with the cookie the first
    one set: the state keeps the stamp of noon. *)
Lemma Save_stamps_CreatedAt_once_witness :
  heap (world fresh None ∅ true) !! s1 = Some fresh
  /\ IsZero (clock (world fresh None ∅ true)) = false
  /\ exists (st1 : SessionState) (t : Time),
       heap (Fake.Save (manager Working) tt no_cookie s1 (world fresh None ∅ true)).2 !! s1
         = Some st1
       /\ CreatedAt st1 = Some t
       /\ (CreatedAt fresh = None -> t = noon)
       /\ heap (Fake.Save (manager Working) tt {| cookie := Some "t-new" |} s1
                  (at_time evening
                     (Fake.Save (manager Working) tt no_cookie s1
                        (world fresh None ∅ true)).2)).2 !! s1
          = Some st1.
Proof.
  split; [reflexivity|]. split; [reflexivity|].
  apply (Save_stamps_CreatedAt_once ctx decodeTicketFromRequest newTicket
           setCookie seal (manager Working) tt tt no_cookie {| cookie := Some "t-new" |}
           s1 fresh (world fresh None ∅ true)
           (Fake.Save (manager Working) tt no_cookie s1 (world fresh None ∅ true)).2
           (at_time evening
              (Fake.Save (manager Working) tt no_cookie s1 (world fresh None ∅ true)).2)
           (Fake.Save (manager Working) tt {| cookie := Some "t-new" |} s1
              (at_time evening
                 (Fake.Save (manager Working) tt no_cookie s1
                    (world fresh None ∅ true)).2)).2
           (Ok None) (Ok None));
    vm_compute; reflexivity.
Defined.

(** The store is down: the save of a session with a valid cookie fails
    with the error of the store, and no cookie is set. *)
Lemma Save_persistence_failure_sets_no_cookie_witness :
  Fake.reachesPersist (manager Working) cookie_t1 s1
    (world fresh (Some "t1") entry_t1 false) (tkt "t1" Working)
    (traced [CallDecode] (world (set_CreatedAt (Some noon) fresh) (Some "t1") entry_t1 false))
  /\ Fake.saveSession (tkt "t1" Working) s1 (Fake.storeSaver (manager Working) cookie_t1)
       (traced [CallDecode]
          (world (set_CreatedAt (Some noon) fresh) (Some "t1") entry_t1 false))
     = (Ok (Some down),
        traced [CallDecode; CallStoreSave "t1"]
          (world (set_CreatedAt (Some noon) fresh) (Some "t1") entry_t1 false))
  /\ Fake.Save (manager Working) tt cookie_t1 s1 (world fresh (Some "t1") entry_t1 false)
     = (Ok (Some down),
        traced [CallDecode; CallStoreSave "t1"]
          (world (set_CreatedAt (Some noon) fresh) (Some "t1") entry_t1 false)).
Proof.
  assert (H1 : Fake.reachesPersist (manager Working) cookie_t1 s1
                 (world fresh (Some "t1") entry_t1 false) (tkt "t1" Working)
                 (traced [CallDecode]
                    (world (set_CreatedAt (Some noon) fresh) (Some "t1") entry_t1 false)))
    by (vm_compute; reflexivity).
  assert (H2 : Fake.saveSession (tkt "t1" Working) s1
                 (Fake.storeSaver (manager Working) cookie_t1)
                 (traced [CallDecode]
                    (world (set_CreatedAt (Some noon) fresh) (Some "t1") entry_t1 false))
               = (Ok (Some down),
                  traced [CallDecode; CallStoreSave "t1"]
                    (world (set_CreatedAt (Some noon) fresh) (Some "t1") entry_t1 false)))
    by (vm_compute; reflexivity).
  split; [exact H1|]. split; [exact H2|].
  exact (proj1 (Save_persistence_failure_sets_no_cookie ctx decodeTicketFromRequest
                  newTicket setCookie seal (manager Working) tt cookie_t1 s1
                  _ _ _ _ _ H1 H2)).
Defined.

(** A cookie that does not decode: the save goes on with a minted ticket. *)
Lemma Save_mints_ticket_on_decode_failure_witness :
  heap (world fresh (Some "junk") ∅ true) !! s1 = Some fresh
  /\ decodeTicketFromRequest cookie_junk Working (jar (world fresh (Some "junk") ∅ true))
     = (inl (ErrText "session ticket cookie failed validation"),
        {| browser := Some "junk"; rand := Some "t-new" |})
  /\ exists w1,
       Fake.reachesPersist (manager Working) cookie_junk s1
         (world fresh (Some "junk") ∅ true) (tkt "t-new" Working) w1
       /\ trace w1 = [CallDecode; CallNewTicket]
       /\ store w1 = {| entries := ∅; up := true |}
       /\ jar w1 = {| browser := Some "junk"; rand := Some "t-newx" |}
       /\ Fake.Save (manager Working) tt cookie_junk s1 (world fresh (Some "junk") ∅ true)
          = persistWithTicket ctx setCookie seal (manager Working) tt cookie_junk s1
              (tkt "t-new" Working) w1.
Proof.
  split; [reflexivity|]. split; [reflexivity|].
  exact (Save_mints_ticket_on_decode_failure ctx decodeTicketFromRequest newTicket
           setCookie seal (manager Working) tt cookie_junk s1 fresh
           (world fresh (Some "junk") ∅ true)
           (ErrText "session ticket cookie failed validation")
           {| browser := Some "junk"; rand := Some "t-new" |}
           eq_refl eq_refl).
Defined.

(** The store is down: the save returns the very error the store returned,
    after one call of [Store.Save]. *)
Lemma Save_store_error_verbatim_witness :
  Fake.reachesPersist (manager Working) cookie_t1 s1
    (world fresh (Some "t1") entry_t1 false) (tkt "t1" Working)
    (traced [CallDecode] (world (set_CreatedAt (Some noon) fresh) (Some "t1") entry_t1 false))
  /\ Store_Save mem tt "t1" (String.list_byte_of_string "alice") 3600%Z
       {| entries := entry_t1; up := false |}
     = (Some down, {| entries := entry_t1; up := false |})
  /\ exists w' calls,
       Fake.Save (manager Working) tt cookie_t1 s1 (world fresh (Some "t1") entry_t1 false)
         = (Ok (Some down), w')
       /\ store w' = {| entries := entry_t1; up := false |}
       /\ trace w' = trace (world fresh (Some "t1") entry_t1 false) ++ calls
       /\ count_calls is_StoreSave calls = 1%nat
       /\ count_calls is_SetCookie calls = 0%nat.
Proof.
  assert (H1 : Fake.reachesPersist (manager Working) cookie_t1 s1
                 (world fresh (Some "t1") entry_t1 false) (tkt "t1" Working)
                 (traced [CallDecode]
                    (world (set_CreatedAt (Some noon) fresh) (Some "t1") entry_t1 false)))
    by (vm_compute; reflexivity).
  split; [exact H1|]. split; [reflexivity|].
  apply (Save_store_error_verbatim ctx decodeTicketFromRequest newTicket setCookie seal
           (manager Working) tt cookie_t1 s1 _ _ _
           (set_CreatedAt (Some noon) fresh) (String.list_byte_of_string "alice") 3600%Z
           {| browser := Some "t1"; rand := Some "t-new" |} down
           {| entries := entry_t1; up := false |} H1);
    reflexivity.
Defined.

(** A cookie that does not decode: nothing is loaded. *)
Lemma Load_decode_failure_witness :
  decodeTicketFromRequest cookie_junk Working (jar (world fresh (Some "junk") entry_t1 true))
  = (inl (ErrText "session ticket cookie failed validation"),
     {| browser := Some "junk"; rand := Some "t-new" |})
  /\ exists w',
       Fake.Load (manager Working) cookie_junk (world fresh (Some "junk") entry_t1 true)
         = (Ok (None, Some (ErrText "session ticket cookie failed validation")), w')
       /\ trace w' = trace (world fresh (Some "junk") entry_t1 true) ++ [CallDecode]
       /\ count_calls is_StoreLoad [CallDecode] = 0%nat
       /\ store w' = store (world fresh (Some "junk") entry_t1 true).
Proof.
  split; [reflexivity|].
  exact (Load_decode_failure ctx decodeTicketFromRequest unseal (manager Working)
           cookie_junk (world fresh (Some "junk") entry_t1 true)
           (ErrText "session ticket cookie failed validation")
           {| browser := Some "junk"; rand := Some "t-new" |} eq_refl).
Defined.

(** No cookie, a stale cookie in the browser and a working cookie builder:
    [Clear] succeeds, the browser holds no cookie afterwards and the store is
    as it was. *)
Lemma Clear_no_cookie_witness :
  decodeTicketFromRequest no_cookie Working (jar (world fresh (Some "stale") entry_t1 true))
  = (inl ErrNoCookie, {| browser := Some "stale"; rand := Some "t-new" |})
  /\ errors_Is ErrNoCookie ErrNoCookie = true
  /\ exists w',
       Fake.Clear (manager Working) tt no_cookie (world fresh (Some "stale") entry_t1 true)
         = (Ok None, w')
       /\ trace w' = [CallDecode; CallClearCookie EmptyString]
       /\ jar w' = {| browser := None; rand := Some "t-new" |}
       /\ store w' = {| entries := entry_t1; up := true |}
       /\ heap w' = heap (world fresh (Some "stale") entry_t1 true)
       /\ clock w' = noon.
Proof.
  split; [reflexivity|]. split; [reflexivity|].
  exact (Clear_no_cookie ctx decodeTicketFromRequest clearCookie (manager Working) tt
           no_cookie (world fresh (Some "stale") entry_t1 true) ErrNoCookie
           {| browser := Some "stale"; rand := Some "t-new" |} eq_refl eq_refl).
Defined.

(** C5, as stated, fails: no cookie and a cookie builder that cannot build
    the clearing cookie; the decode fails with the no-cookie condition and
    [Clear] returns an error. *)
Lemma Clear_no_cookie_counterexample :
  (decodeTicketFromRequest no_cookie Broken (jar (world fresh None ∅ true))).1
  = inl ErrNoCookie
  /\ errors_Is ErrNoCookie ErrNoCookie = true
  /\ (Fake.Clear (manager Broken) tt no_cookie (world fresh None ∅ true)).1
     = Ok (Some (ErrText
         "error creating cookie to clear session: cookie builder: no signing secret"))
  /\ (Fake.Clear (manager Broken) tt no_cookie (world fresh None ∅ true)).1 <> Ok None.
Proof.
  split; [reflexivity|]. split; [reflexivity|]. split; [reflexivity|].
  vm_compute. discriminate.
Qed.

(** A cookie that does not decode: it is cleared all the same, the browser
    holds no cookie afterwards, and [Clear] returns the decode error with
    context. *)
Lemma Clear_invalid_cookie_witness :
  decodeTicketFromRequest cookie_junk Working (jar (world fresh (Some "junk") entry_t1 true))
  = (inl (ErrText "session ticket cookie failed validation"),
     {| browser := Some "junk"; rand := Some "t-new" |})
  /\ errors_Is (ErrText "session ticket cookie failed validation") ErrNoCookie = false
  /\ exists w',
       Fake.Clear (manager Working) tt cookie_junk (world fresh (Some "junk") entry_t1 true)
         = (Ok (Some (ErrText
              "error decoding ticket to clear session: session ticket cookie failed validation")),
            w')
       /\ trace w' = [CallDecode; CallClearCookie EmptyString]
       /\ jar w' = {| browser := None; rand := Some "t-new" |}
       /\ store w' = {| entries := entry_t1; up := true |}
       /\ heap w' = heap (world fresh (Some "junk") entry_t1 true)
       /\ clock w' = noon.
Proof.
  split; [reflexivity|]. split; [reflexivity|].
  exact (Clear_invalid_cookie ctx decodeTicketFromRequest clearCookie (manager Working) tt
           cookie_junk (world fresh (Some "junk") entry_t1 true)
           (ErrText "session ticket cookie failed validation")
           {| browser := Some "junk"; rand := Some "t-new" |} eq_refl eq_refl).
Defined.

(** C7 fails on the code: a request with a valid cookie, a cookie builder
    that cannot build the clearing cookie, a store that is up.  The ticket
    decodes, [clearCookie] returns an error, and [Clear] returns nil: line 89
    drops the error that line 79 checks on the other path. *)
Theorem Clear_drops_clearCookie_error :
  decodeTicketFromRequest cookie_t1 Broken (jar (world fresh (Some "t1") entry_t1 true))
  = (inr (tkt "t1" Broken), {| browser := Some "t1"; rand := Some "t-new" |})
  /\ (clearCookie (tkt "t1" Broken) tt cookie_t1
        {| browser := Some "t1"; rand := Some "t-new" |}).1
     = Some (ErrText "cookie builder: no signing secret")
  /\ (Fake.Clear (manager Broken) tt cookie_t1 (world fresh (Some "t1") entry_t1 true)).1
     = Ok None.
Proof. repeat split; vm_compute; reflexivity. Qed.

(** C9 fails on the code, at the same input: [Clear] returns nil, the
    browser still holds the cookie [t1], which still decodes to the ticket
    [t1], and the store entry [t1] it points at is gone.  The calls came in
    the order the claim states: the cookie, then the store. *)
Theorem Clear_leaves_cookie_of_deleted_entry :
  entries (store (world fresh (Some "t1") entry_t1 true)) !! "t1"
  = Some (String.list_byte_of_string "alice")
  /\ (Fake.Clear (manager Broken) tt cookie_t1 (world fresh (Some "t1") entry_t1 true)).1
     = Ok None
  /\ browser (jar (Fake.Clear (manager Broken) tt cookie_t1
                     (world fresh (Some "t1") entry_t1 true)).2)
     = Some "t1"
  /\ (decodeTicketFromRequest
        {| cookie := browser (jar (Fake.Clear (manager Broken) tt cookie_t1
                                     (world fresh (Some "t1") entry_t1 true)).2) |}
        Broken
        (jar (Fake.Clear (manager Broken) tt cookie_t1
                (world fresh (Some "t1") entry_t1 true)).2)).1
     = inr (tkt "t1" Broken)
  /\ entries (store (Fake.Clear (manager Broken) tt cookie_t1
                       (world fresh (Some "t1") entry_t1 true)).2) !! "t1"
     = None
  /\ trace (Fake.Clear (manager Broken) tt cookie_t1
              (world fresh (Some "t1") entry_t1 true)).2
     = [CallDecode; CallClearCookie "t1"; CallStoreClear "t1"].
Proof. repeat split; vm_compute; reflexivity. Qed.

(** *** Runs for the further properties *)

(** A valid cookie: the save reuses its ticket. *)
Lemma Save_reuses_decoded_ticket_witness :
  heap (world fresh (Some "t1") entry_t1 true) !! s1 = Some fresh
  /\ decodeTicketFromRequest cookie_t1 Working (jar (world fresh (Some "t1") entry_t1 true))
     = (inr (tkt "t1" Working), {| browser := Some "t1"; rand := Some "t-new" |})
  /\ exists w1,
       Fake.reachesPersist (manager Working) cookie_t1 s1
         (world fresh (Some "t1") entry_t1 true) (tkt "t1" Working) w1
       /\ trace w1 = [CallDecode]
       /\ store w1 = {| entries := entry_t1; up := true |}
       /\ jar w1 = {| browser := Some "t1"; rand := Some "t-new" |}
       /\ Fake.Save (manager Working) tt cookie_t1 s1 (world fresh (Some "t1") entry_t1 true)
          = persistWithTicket ctx setCookie seal (manager Working) tt cookie_t1 s1
              (tkt "t1" Working) w1.
Proof.
  split; [reflexivity|]. split; [reflexivity|].
  exact (Save_reuses_decoded_ticket ctx decodeTicketFromRequest newTicket setCookie seal
           (manager Working) tt cookie_t1 s1 fresh (world fresh (Some "t1") entry_t1 true)
           (tkt "t1" Working) {| browser := Some "t1"; rand := Some "t-new" |}
           eq_refl eq_refl).
Defined.

(** The store is up but the cookie builder is broken: the save returns the
    error of [setCookie]. *)
Lemma Save_returns_setCookie_result_witness :
  Fake.reachesPersist (manager Broken) cookie_t1 s1
    (world fresh (Some "t1") entry_t1 true) (tkt "t1" Broken)
    (traced [CallDecode] (world (set_CreatedAt (Some noon) fresh) (Some "t1") entry_t1 true))
  /\ Fake.saveSession (tkt "t1" Broken) s1 (Fake.storeSaver (manager Broken) cookie_t1)
       (traced [CallDecode]
          (world (set_CreatedAt (Some noon) fresh) (Some "t1") entry_t1 true))
     = (Ok None,
        traced [CallDecode; CallStoreSave "t1"]
          (world (set_CreatedAt (Some noon) fresh) (Some "t1") entry_t1 true))
  /\ exists (st1 : SessionState) (t : Time) (w' : @World Mem Jar),
       heap (traced [CallDecode; CallStoreSave "t1"]
               (world (set_CreatedAt (Some noon) fresh) (Some "t1") entry_t1 true)) !! s1
         = Some st1
       /\ CreatedAt st1 = Some t
       /\ Fake.Save (manager Broken) tt cookie_t1 s1 (world fresh (Some "t1") entry_t1 true)
          = (Ok (setCookie (tkt "t1" Broken) tt cookie_t1 st1
                   {| browser := Some "t1"; rand := Some "t-new" |}).1, w')
       /\ trace w' = [CallDecode; CallStoreSave "t1"; CallSetCookie "t1"]
       /\ jar w' = (setCookie (tkt "t1" Broken) tt cookie_t1 st1
                      {| browser := Some "t1"; rand := Some "t-new" |}).2
       /\ store w' = {| entries := entry_t1; up := true |}.
Proof.
  assert (H1 : Fake.reachesPersist (manager Broken) cookie_t1 s1
                 (world fresh (Some "t1") entry_t1 true) (tkt "t1" Broken)
                 (traced [CallDecode]
                    (world (set_CreatedAt (Some noon) fresh) (Some "t1") entry_t1 true)))
    by (vm_compute; reflexivity).
  assert (H2 : Fake.saveSession (tkt "t1" Broken) s1
                 (Fake.storeSaver (manager Broken) cookie_t1)
                 (traced [CallDecode]
                    (world (set_CreatedAt (Some noon) fresh) (Some "t1") entry_t1 true))
               = (Ok None,
                  traced [CallDecode; CallStoreSave "t1"]
                    (world (set_CreatedAt (Some noon) fresh) (Some "t1") entry_t1 true)))
    by (vm_compute; reflexivity).
  split; [exact H1|]. split; [exact H2|].
  exact (Save_returns_setCookie_result ctx decodeTicketFromRequest newTicket
           setCookie seal (manager Broken) tt cookie_t1 s1 _ _ _ _ H1 H2).
Defined.

(** Nothing is allocated at address 2: the save panics at once. *)
Lemma Save_nil_state_panics_witness :
  heap (world fresh None ∅ true) !! 2%positive = None
  /\ Fake.Save (manager Working) tt no_cookie 2%positive (world fresh None ∅ true)
     = (Panic, world fresh None ∅ true).
Proof.
  split; [reflexivity|].
  exact (Save_nil_state_panics ctx decodeTicketFromRequest newTicket setCookie seal
           (manager Working) tt no_cookie 2%positive (world fresh None ∅ true) eq_refl).
Defined.

(** A first save that returns nil: the ticket was minted, the store
    written and the cookie set. *)
Lemma Save_success_means_stored_and_set_witness :
  Fake.Save (manager Working) tt no_cookie s1 (world fresh None ∅ true)
  = (Ok None, (Fake.Save (manager Working) tt no_cookie s1 (world fresh None ∅ true)).2)
  /\ exists (tckt : @ticket Builder) (w1 : @World Mem Jar) (st1 : SessionState)
       (t : Time) (ct : list Byte.byte) (ttl : Duration) (j2 : Jar),
       Fake.reachesPersist (manager Working) no_cookie s1 (world fresh None ∅ true) tckt w1
       /\ heap w1 !! s1 = Some st1 /\ CreatedAt st1 = Some t
       /\ seal tckt st1 (jar w1) = (inr (ct, ttl), j2)
       /\ Store_Save mem (ctx no_cookie) (id tckt) ct ttl (store w1)
          = (None, {| entries := {[ "t-new" := String.list_byte_of_string "alice" ]};
                      up := true |})
       /\ setCookie tckt tt no_cookie st1 j2
          = (None, {| browser := Some "t-new"; rand := Some "t-newx" |})
       /\ trace (Fake.Save (manager Working) tt no_cookie s1 (world fresh None ∅ true)).2
          = trace w1 ++ [CallStoreSave (id tckt); CallSetCookie (id tckt)]
       /\ heap (Fake.Save (manager Working) tt no_cookie s1 (world fresh None ∅ true)).2
          = heap w1.
Proof.
  assert (H : Fake.Save (manager Working) tt no_cookie s1 (world fresh None ∅ true)
              = (Ok None,
                 (Fake.Save (manager Working) tt no_cookie s1 (world fresh None ∅ true)).2))
    by (vm_compute; reflexivity).
  split; [exact H|].
  exact (Save_success_means_stored_and_set ctx decodeTicketFromRequest newTicket
           setCookie seal (manager Working) tt no_cookie s1 _ _ H).
Defined.

(** A first save changes the creation time of its state and nothing else. *)
Lemma Save_writes_CreatedAt_only_witness :
  heap (world fresh None ∅ true) !! s1 = Some fresh
  /\ (exists st' : SessionState,
        heap (Fake.Save (manager Working) tt no_cookie s1 (world fresh None ∅ true)).2 !! s1
          = Some st'
        /\ ExpiresOn st' = ExpiresOn fresh /\ payload st' = payload fresh)
  /\ forall s' : loc, s' <> s1 ->
       heap (Fake.Save (manager Working) tt no_cookie s1 (world fresh None ∅ true)).2 !! s'
       = heap (world fresh None ∅ true) !! s'.
Proof.
  split; [reflexivity|].
  apply (Save_writes_CreatedAt_only ctx decodeTicketFromRequest newTicket setCookie seal
           (manager Working) tt no_cookie s1 fresh (world fresh None ∅ true)
           (Fake.Save (manager Working) tt no_cookie s1 (world fresh None ∅ true)).1);
    [reflexivity | vm_compute; reflexivity].
Defined.

(** A valid cookie and its store entry: the load returns what unsealing
    the entry gives. *)
Lemma Load_decoded_witness :
  decodeTicketFromRequest cookie_t1 Working (jar (world fresh (Some "t1") entry_t1 true))
  = (inr (tkt "t1" Working), {| browser := Some "t1"; rand := Some "t-new" |})
  /\ Store_Load mem tt "t1" {| entries := entry_t1; up := true |}
     = ((String.list_byte_of_string "alice", None), {| entries := entry_t1; up := true |})
  /\ exists w',
       Fake.Load (manager Working) cookie_t1 (world fresh (Some "t1") entry_t1 true)
         = (Ok (Some {| CreatedAt := None; ExpiresOn := None; payload := "alice" |}, None), w')
       /\ trace w' = [CallDecode; CallStoreLoad "t1"]
       /\ store w' = {| entries := entry_t1; up := true |}
       /\ jar w' = {| browser := Some "t1"; rand := Some "t-new" |}
       /\ heap w' = heap (world fresh (Some "t1") entry_t1 true).
Proof.
  split; [reflexivity|]. split; [reflexivity|].
  exact (Load_decoded ctx decodeTicketFromRequest unseal (manager Working) cookie_t1
           (world fresh (Some "t1") entry_t1 true) (tkt "t1" Working)
           {| browser := Some "t1"; rand := Some "t-new" |}
           (String.list_byte_of_string "alice") None
           {| entries := entry_t1; up := true |} eq_refl eq_refl).
Defined.

(** A valid cookie and a store that is down: the cookie is cleared and
    [Clear] returns the error of the store. *)
Lemma Clear_decoded_witness :
  decodeTicketFromRequest cookie_t1 Working (jar (world fresh (Some "t1") entry_t1 false))
  = (inr (tkt "t1" Working), {| browser := Some "t1"; rand := Some "t-new" |})
  /\ clearCookie (tkt "t1" Working) tt cookie_t1
       {| browser := Some "t1"; rand := Some "t-new" |}
     = (None, {| browser := None; rand := Some "t-new" |})
  /\ Store_Clear mem tt "t1" {| entries := entry_t1; up := false |}
     = (Some down, {| entries := entry_t1; up := false |})
  /\ exists w',
       Fake.Clear (manager Working) tt cookie_t1 (world fresh (Some "t1") entry_t1 false)
         = (Ok (Some down), w')
       /\ trace w' = [CallDecode; CallClearCookie "t1"; CallStoreClear "t1"]
       /\ store w' = {| entries := entry_t1; up := false |}
       /\ jar w' = {| browser := None; rand := Some "t-new" |}.
Proof.
  split; [reflexivity|]. split; [reflexivity|]. split; [reflexivity|].
  exact (Clear_decoded ctx decodeTicketFromRequest clearCookie (manager Working) tt
           cookie_t1 (world fresh (Some "t1") entry_t1 false) (tkt "t1" Working)
           {| browser := Some "t1"; rand := Some "t-new" |}
           {| browser := None; rand := Some "t-new" |} None (Some down)
           {| entries := entry_t1; up := false |} eq_refl eq_refl eq_refl).
Defined.

(** No cookie, reported by a decoder that wraps its errors: still success. *)
Lemma Clear_wrapped_no_cookie_witness :
  decodeWrapping no_cookie Working (jar (world fresh None ∅ true))
  = (inl (wrapped ["decoding ticket: http: named cookie not present"] ErrNoCookie),
     {| browser := None; rand := Some "t-new" |})
  /\ clearCookie (zero_ticket Working) tt no_cookie {| browser := None; rand := Some "t-new" |}
     = (None, {| browser := None; rand := Some "t-new" |})
  /\ exists w',
       persistence.Clear ctx decodeWrapping clearCookie (manager Working) tt no_cookie
         (world fresh None ∅ true) = (Ok None, w')
       /\ trace w' = [CallDecode; CallClearCookie EmptyString]
       /\ store w' = {| entries := ∅; up := true |}
       /\ jar w' = {| browser := None; rand := Some "t-new" |}.
Proof.
  split; [reflexivity|]. split; [reflexivity|].
  exact (Clear_wrapped_no_cookie ctx decodeWrapping clearCookie (manager Working) tt
           no_cookie (world fresh None ∅ true)
           ["decoding ticket: http: named cookie not present"]
           {| browser := None; rand := Some "t-new" |}
           {| browser := None; rand := Some "t-new" |} eq_refl eq_refl).
Defined.

(** No cookie, reported by a decoder that formats its errors: an error. *)
Lemma Clear_formatted_no_cookie_is_an_error_witness :
  decodeFormatting no_cookie Working (jar (world fresh None ∅ true))
  = (inl (Errorf "decoding ticket: " ErrNoCookie),
     {| browser := None; rand := Some "t-new" |})
  /\ clearCookie (zero_ticket Working) tt no_cookie {| browser := None; rand := Some "t-new" |}
     = (None, {| browser := None; rand := Some "t-new" |})
  /\ exists w',
       persistence.Clear ctx decodeFormatting clearCookie (manager Working) tt no_cookie
         (world fresh None ∅ true)
       = (Ok (Some (ErrText ("error decoding ticket to clear session: " +:+
                             "decoding ticket: " +:+ "http: named cookie not present"))),
          w').
Proof.
  split; [reflexivity|]. split; [reflexivity|].
  exact (Clear_formatted_no_cookie_is_an_error ctx decodeFormatting clearCookie
           (manager Working) tt no_cookie (world fresh None ∅ true) "decoding ticket: "
           {| browser := None; rand := Some "t-new" |}
           {| browser := None; rand := Some "t-new" |} eq_refl eq_refl).
Defined.

(** A valid cookie and its store entry: the load leaves the browser, the
    store and the state objects as they were. *)
Lemma Load_read_only_witness :
  Fake.Load (manager Working) cookie_t1 (world fresh (Some "t1") entry_t1 true)
  = (Ok (Some {| CreatedAt := None; ExpiresOn := None; payload := "alice" |}, None),
     (Fake.Load (manager Working) cookie_t1 (world fresh (Some "t1") entry_t1 true)).2)
  /\ heap (Fake.Load (manager Working) cookie_t1 (world fresh (Some "t1") entry_t1 true)).2
     = heap (world fresh (Some "t1") entry_t1 true)
  /\ clock (Fake.Load (manager Working) cookie_t1 (world fresh (Some "t1") entry_t1 true)).2
     = noon
  /\ jar (Fake.Load (manager Working) cookie_t1 (world fresh (Some "t1") entry_t1 true)).2
     = {| browser := Some "t1"; rand := Some "t-new" |}
  /\ trace (Fake.Load (manager Working) cookie_t1 (world fresh (Some "t1") entry_t1 true)).2
     = [CallDecode; CallStoreLoad "t1"]
  /\ store (Fake.Load (manager Working) cookie_t1 (world fresh (Some "t1") entry_t1 true)).2
     = {| entries := entry_t1; up := true |}.
Proof.
  assert (H : Fake.Load (manager Working) cookie_t1 (world fresh (Some "t1") entry_t1 true)
              = (Ok (Some {| CreatedAt := None; ExpiresOn := None; payload := "alice" |},
                     None),
                 (Fake.Load (manager Working) cookie_t1
                    (world fresh (Some "t1") entry_t1 true)).2))
    by (vm_compute; reflexivity).
  split; [exact H|].
  exact (Load_read_only ctx decodeTicketFromRequest unseal (manager Working) cookie_t1
           (world fresh (Some "t1") entry_t1 true) _ _ H).
Defined.

(** A valid cookie, a working cookie builder and a store that is up: the
    browser holds no cookie afterwards and the entry is gone. *)
Lemma Clear_always_clears_cookie_witness :
  Fake.Clear (manager Working) tt cookie_t1 (world fresh (Some "t1") entry_t1 true)
  = (Ok None,
     (Fake.Clear (manager Working) tt cookie_t1 (world fresh (Some "t1") entry_t1 true)).2)
  /\ heap (Fake.Clear (manager Working) tt cookie_t1
             (world fresh (Some "t1") entry_t1 true)).2
     = heap (world fresh (Some "t1") entry_t1 true)
  /\ clock (Fake.Clear (manager Working) tt cookie_t1
              (world fresh (Some "t1") entry_t1 true)).2
     = noon
  /\ trace (Fake.Clear (manager Working) tt cookie_t1
              (world fresh (Some "t1") entry_t1 true)).2
     = [CallDecode; CallClearCookie "t1"; CallStoreClear "t1"]
  /\ jar (Fake.Clear (manager Working) tt cookie_t1
            (world fresh (Some "t1") entry_t1 true)).2
     = {| browser := None; rand := Some "t-new" |}
  /\ store (Fake.Clear (manager Working) tt cookie_t1
              (world fresh (Some "t1") entry_t1 true)).2
     = {| entries := ∅; up := true |}.
Proof.
  assert (H : Fake.Clear (manager Working) tt cookie_t1
                (world fresh (Some "t1") entry_t1 true)
              = (Ok None,
                 (Fake.Clear (manager Working) tt cookie_t1
                    (world fresh (Some "t1") entry_t1 true)).2))
    by (vm_compute; reflexivity).
  split; [exact H|].
  exact (Clear_always_clears_cookie ctx decodeTicketFromRequest clearCookie
           (manager Working) tt cookie_t1 (world fresh (Some "t1") entry_t1 true) _ _ H).
Defined.
